(** * Restaurant admin dashboard: customer list view, create-user form
      and statistics dashboard

    A shallow embedding of the screens of the dashboard:

    - [ViewCustomers] (the customer table with its edit and delete
      actions and its table body) and [ViewCustomersEvents] (the buttons
      of the table),
    - [CreateUser] (the controlled form whose submit handler posts the
      form data with axios and reports the outcome with [alert]), and
    - [KpiCard] and [Statistics] (the defaults of the KPI card and the
      colouring of the pie cells).

    React component state is modelled by explicit state passing: a handler
    is a function from the state of the render it closes over to the state
    it sets.  The browser dialogs ([window.confirm], [prompt]) are modelled
    by a record of answers; [alert], [console.error], [navigate] and the
    network are logs carried in the state. *)

From stdpp Require Import base tactics option list strings pretty gmap.

Local Open Scope string_scope.
Local Open Scope list_scope.

(** ** JavaScript truthiness of the values the handlers test *)

(** [prompt] returns a string, or [null] when the dialog is cancelled;
    an optional property that is absent reads as [undefined].  Both are
    [None] here.  Of the strings only the empty one is falsy. *)
Definition truthy (v : option string) : bool :=
  match v with
  | Some s => negb (String.eqb s "")
  | None => false
  end.

(** [v || fallback] on such a value. *)
Definition or_else (v : option string) (fallback : string) : string :=
  match v with
  | Some s => if truthy v then s else fallback
  | None => fallback
  end.

(** ** JavaScript values *)

(** A number: an IEEE 754 double, by its class.  A finite non-zero number
    is given by its sign, mantissa and binary exponent. *)
Inductive JsNumber :=
| NaN
| Zero (negative : bool)
| Infinite (negative : bool)
| Finite (negative : bool) (mantissa : positive) (exponent : Z).

#[local] Set Warnings "-register-all".

(** The values a JSON document can hold, and so the values a property of
    a parsed response body can have.  An absent property reads as
    [undefined], which is [None] wherever a property is read. *)
Inductive JsValue :=
| JsNull
| JsBool (b : bool)
| JsNum (x : JsNumber)
| JsString (s : string)
| JsArray (items : list JsValue)
| JsObject (props : list (string * JsValue)).

Coercion JsString : string >-> JsValue.

(** ToBoolean: [null], [false], [NaN], the two zeros and the empty string
    are falsy; every other value, arrays and objects included, is truthy. *)
Definition to_boolean (v : JsValue) : bool :=
  match v with
  | JsNull => false
  | JsBool b => b
  | JsNum NaN => false
  | JsNum (Zero _) => false
  | JsNum _ => true
  | JsString s => negb (String.eqb s "")
  | JsArray _ => true
  | JsObject _ => true
  end.

(** [v || fallback], where [v] is a property that may be absent. *)
Definition js_or (v : option JsValue) (fallback : JsValue) : JsValue :=
  match v with
  | Some x => if to_boolean x then x else fallback
  | None => fallback
  end.

(** ** The browser dialogs *)

(** What the user answers to a dialog showing a given message. *)
Record Window := {
  confirm : string → bool;
  prompt : string → option string
}.

(** A user who gives the same answers whatever the message. *)
Definition answers (c : bool) (p : option string) : Window :=
  {| confirm := λ _, c; prompt := λ _, p |}.

(** * Customer list view *)
Module ViewCustomers.

(** A customer record, as in the initial state of the component.  The
    ids are integer-valued numbers: the initial list uses 1 and 2, and no
    operation of the view creates an id. *)
Record Customer := {
  id : Z;
  name : string;
  DOB : string;
  phoneNumber : string;
  password : string;
  role : string
}.

#[export] Instance Customer_eq_dec : EqDecision Customer.
Proof. solve_decision. Defined.

(** [{ ...customer, name: newName }] *)
Definition with_name (customer : Customer) (newName : string) : Customer :=
  {| id := id customer;
     name := newName;
     DOB := DOB customer;
     phoneNumber := phoneNumber customer;
     password := password customer;
     role := role customer |}.

(** The argument of [useState]. *)
Definition initial_customers : list Customer :=
  [ {| id := 1; name := "John Doe"; DOB := "1990-05-15";
       phoneNumber := "1234567890"; password := "pass123";
       role := "Customer" |};
    {| id := 2; name := "Jane Smith"; DOB := "1995-08-20";
       phoneNumber := "9876543210"; password := "secure456";
       role := "Admin" |} ].

Definition confirm_delete_msg : string :=
  "Are you sure you want to delete this customer?".
Definition prompt_name_msg : string := "Enter new name:".

(** [handleDelete]: the state after the handler has run, from the state
    [customers] of the render it closes over.  When [setCustomers] is not
    called the state stays as it is. *)
Definition handleDelete (window : Window) (target : Z)
    (customers : list Customer) : list Customer :=
  if confirm window confirm_delete_msg
  then filter (λ customer, id customer ≠ target) customers
  else customers.

(** [handleEdit] *)
Definition handleEdit (window : Window) (target : Z)
    (customers : list Customer) : list Customer :=
  let newName := prompt window prompt_name_msg in
  match newName with
  | Some s =>
      if truthy newName
      then (λ customer,
              if decide (id customer = target)
              then with_name customer s
              else customer) <$> customers
      else customers
  | None => customers
  end.

(** *** What the edit action is to do to a record *)

(** What an edit of [target] to the name [s] does to one record [c],
    giving [c']: the name is the only field that can differ, it becomes
    [s] when the id matches, and the record is the same otherwise. *)
Definition edited (target : Z) (s : string) (c c' : Customer) : Prop :=
  id c' = id c ∧ DOB c' = DOB c ∧ phoneNumber c' = phoneNumber c
  ∧ password c' = password c ∧ role c' = role c
  ∧ (id c = target → name c' = s)
  ∧ (id c ≠ target → c' = c).

(** *** The table body *)

(** The rows of [<tbody>].  A data row carries its React key and the text
    of its five cells (the sixth cell holds the two buttons, which call the
    handlers with the row's id); the placeholder row has one cell spanning
    [colSpan] columns. *)
Inductive Row :=
| DataRow (key : Z) (cells : list string) (edit_id delete_id : Z)
| PlaceholderRow (colSpan : nat) (text : string).

Definition table_header : list string :=
  ["Name"; "DOB"; "Phone Number"; "Password"; "Role"; "Actions"].

Definition customer_row (customer : Customer) : Row :=
  DataRow (id customer)
    [name customer; DOB customer; phoneNumber customer;
     password customer; role customer]
    (id customer) (id customer).

(** [{customers.map(...)}] followed by
    [{customers.length === 0 && (<tr>...</tr>)}]; React renders nothing
    for [false]. *)
Definition render_tbody (customers : list Customer) : list Row :=
  (customer_row <$> customers)
  ++ (if decide (length customers = 0)
      then [PlaceholderRow 6 "No customers found"]
      else []).

Definition is_data_row (r : Row) : bool :=
  match r with DataRow _ _ _ _ => true | PlaceholderRow _ _ => false end.
Definition is_placeholder_row (r : Row) : bool :=
  match r with DataRow _ _ _ _ => false | PlaceholderRow _ _ => true end.

Definition data_rows (rows : list Row) : list Row :=
  List.filter is_data_row rows.
Definition placeholder_rows (rows : list Row) : list Row :=
  List.filter is_placeholder_row rows.

End ViewCustomers.

(** * Create-user form *)
Module CreateUser.

(** ** The form *)

(** An [<input>] of the form, with the attributes the component gives it. *)
Record Input := {
  type : string;
  name : string;
  placeholder : string;
  required : bool
}.

(** The children of [<form>], in document order (the submit button apart). *)
Definition inputs : list Input :=
  [ {| type := "text"; name := "name"; placeholder := "Name";
       required := true |};
    {| type := "date"; name := "DOB"; placeholder := "Date of Birth";
       required := false |};
    {| type := "tel"; name := "phoneNumber"; placeholder := "Phone Number";
       required := true |};
    {| type := "password"; name := "password"; placeholder := "Password";
       required := true |};
    {| type := "text"; name := "role"; placeholder := "Role";
       required := false |} ].

Definition field_names : list string := name <$> inputs.
Definition required_names : list string :=
  name <$> List.filter required inputs.
Definition optional_names : list string :=
  name <$> List.filter (λ i, negb (required i)) inputs.

(** The form data is a JavaScript object used as a map from field name to
    the current string value.  This is the argument of [useState], and the
    object [setFormData] is given after a successful submission. *)
Definition empty_formData : gmap string string :=
  <["name" := ""]> (<["DOB" := ""]> (<["phoneNumber" := ""]>
    (<["password" := ""]> (<["role" := ""]> ∅)))).

(** [handleChange]: [{ ...formData, [e.target.name]: e.target.value }] *)
Definition handleChange (e_target_name e_target_value : string)
    (formData : gmap string string) : gmap string string :=
  <[e_target_name := e_target_value]> formData.

(** The value an input displays: [value={formData.<name>}]. *)
Definition displayed (formData : gmap string string) (i : Input)
  : option string := formData !! name i.

(** The browser lets the submit event through only when every input
    marked [required] has a non-empty value. *)
Definition required_filled (formData : gmap string string) : bool :=
  forallb (λ i, truthy (displayed formData i)) (List.filter required inputs).

(** ** The network *)

Record Request := {
  method : string;
  url : string;
  body : gmap string string
}.

Definition create_url : string := "http://localhost:5000/api/auth/create".

(** A response body, as far as the handler reads it: its [message]
    property.  The property can hold any value JSON allows; it is absent
    ([None]) when the body has no such key, and also when the body is not an
    object at all (a string, say), since reading the property then gives
    [undefined] as well. *)
Record Body := { message : option JsValue }.

Record Response := {
  status : Z;
  data : option Body
}.

(** What the network does with a request. *)
Inductive NetResult :=
| NetworkError
| Responded (r : Response).

(** The error axios rejects with; [response] is absent when no response
    was received. *)
Record AxiosError := { response : option Response }.

Inductive Settled :=
| Resolved (res : Response)
| Rejected (err : AxiosError).

(** axios' default [validateStatus]. *)
Definition validateStatus (status : Z) : bool :=
  (200 <=? status)%Z && (status <? 300)%Z.

(** How the promise of [axios.post] settles. *)
Definition axios_settle (n : NetResult) : Settled :=
  match n with
  | NetworkError => Rejected {| response := None |}
  | Responded r =>
      if validateStatus (status r)
      then Resolved r
      else Rejected {| response := Some r |}
  end.

(** ** The component *)

Record State := {
  formData : gmap string string;
  pending : list Request;      (* requests whose promise has not settled *)
  sent : list Request;         (* every request issued so far *)
  alerts : list JsValue;       (* values passed to [alert], oldest first *)
  console : list AxiosError    (* errors passed to [console.error] *)
}.

Definition initial_state : State :=
  {| formData := empty_formData; pending := []; sent := [];
     alerts := []; console := [] |}.

Definition set_formData (fd : gmap string string) (s : State) : State :=
  {| formData := fd; pending := pending s; sent := sent s;
     alerts := alerts s; console := console s |}.

Definition alert (msg : JsValue) (s : State) : State :=
  {| formData := formData s; pending := pending s; sent := sent s;
     alerts := alerts s ++ [msg]; console := console s |}.

Definition console_error (err : AxiosError) (s : State) : State :=
  {| formData := formData s; pending := pending s; sent := sent s;
     alerts := alerts s; console := console s ++ [err] |}.

Definition axios_post (u : string) (b : gmap string string) (s : State)
  : State :=
  let r := {| method := "POST"; url := u; body := b |} in
  {| formData := formData s; pending := pending s ++ [r];
     sent := sent s ++ [r]; alerts := alerts s; console := console s |}.

Definition settle_pending (i : nat) (s : State) : State :=
  {| formData := formData s; pending := delete i (pending s);
     sent := sent s; alerts := alerts s; console := console s |}.

(** [err.response?.data?.message] *)
Definition err_message (err : AxiosError) : option JsValue :=
  match response err with
  | Some r =>
      match data r with
      | Some d => message d
      | None => None
      end
  | None => None
  end.

(** [handleSubmit], up to its [await]: the request is issued with the
    form data of the render the handler closes over.  [e.preventDefault()]
    keeps the browser from reloading the page and touches nothing of the
    state kept here. *)
Definition handleSubmit (s : State) : State :=
  axios_post create_url (formData s) s.

(** [handleSubmit], from the [await] on, once the promise has settled. *)
Definition handleSubmit_resume (outcome : Settled) (s : State) : State :=
  match outcome with
  | Resolved res =>
      if (status res =? 201)%Z || (status res =? 200)%Z
      then set_formData empty_formData (alert "User created successfully!" s)
      else alert "Error creating user." s
  | Rejected err =>
      alert (js_or (err_message err) "Something went wrong.")
            (console_error err s)
  end.

(** ** The events of the component and its step function *)

Inductive Event :=
| Change (e_target_name e_target_value : string)
| Submit
| Settle (i : nat) (n : NetResult).

(** A change event comes from one of the inputs; a submit event passes the
    browser's check of the required inputs; the [i]-th pending request
    settles with what the network did.  [None]: the event cannot occur. *)
Definition step (s : State) (ev : Event) : option State :=
  match ev with
  | Change n v =>
      if decide (n ∈ field_names)
      then Some (set_formData (handleChange n v (formData s)) s)
      else None
  | Submit =>
      if required_filled (formData s)
      then Some (handleSubmit s)
      else None
  | Settle i n =>
      match pending s !! i with
      | Some _ => Some (handleSubmit_resume (axios_settle n)
                          (settle_pending i s))
      | None => None
      end
  end.

Fixpoint run (s : State) (evs : list Event) : option State :=
  match evs with
  | [] => Some s
  | ev :: evs' =>
      match step s ev with
      | Some s' => run s' evs'
      | None => None
      end
  end.

Definition reachable (s : State) : Prop :=
  ∃ evs, run initial_state evs = Some s.

Definition count_submit (evs : list Event) : nat :=
  length (List.filter (λ ev, match ev with Submit => true | _ => false end) evs).
Definition count_settle (evs : list Event) : nat :=
  length (List.filter (λ ev, match ev with Settle _ _ => true | _ => false end) evs).

(** One submission run to its end: the handler issues its request, which
    is appended to the pending ones, and resumes when the network has
    answered that request with [n]. *)
Definition submission (n : NetResult) (s : State) : State :=
  handleSubmit_resume (axios_settle n)
    (settle_pending (length (pending s)) (handleSubmit s)).

(** ** Vocabulary for the outcomes of a request *)

(** The response arrived with status 200 or 201. *)
Definition status_ok (n : NetResult) : bool :=
  match n with
  | NetworkError => false
  | Responded r => bool_decide (status r = 200%Z ∨ status r = 201%Z)
  end.

(** The request failed for axios: no response, or a response that
    [validateStatus] refuses (a status outside 200..299). *)
Definition request_failed (n : NetResult) : bool :=
  match n with
  | NetworkError => true
  | Responded r => negb (validateStatus (status r))
  end.

(** The [message] field of the body the server sent, when there is one. *)
Definition server_message (n : NetResult) : option JsValue :=
  match n with
  | NetworkError => None
  | Responded r =>
      match data r with
      | Some d => message d
      | None => None
      end
  end.

Definition fallback_message : string := "Something went wrong.".

(** The form after the three required fields have been typed in. *)
Definition filled_events : list Event :=
  [Change "name" "Ali"; Change "phoneNumber" "0100"; Change "password" "pw"].

Definition filled_state : State :=
  set_formData
    (handleChange "password" "pw"
       (handleChange "phoneNumber" "0100"
          (handleChange "name" "Ali" empty_formData)))
    initial_state.

(** A rejection by the server whose body carries an empty [message]. *)
Definition empty_message_response : NetResult :=
  Responded {| status := 400; data := Some {| message := Some (JsString "") |} |}.

(** Rejections whose [message] is the number 0, [false], and an object. *)
Definition zero_message_response : NetResult :=
  Responded {| status := 400;
               data := Some {| message := Some (JsNum (Zero false)) |} |}.
Definition false_message_response : NetResult :=
  Responded {| status := 400;
               data := Some {| message := Some (JsBool false) |} |}.
Definition object_message_response : NetResult :=
  Responded {| status := 422;
               data := Some {| message :=
                 Some (JsObject [("phoneNumber", JsString "taken")]) |} |}.

(** The submit button pressed twice on the filled form. *)
Definition double_submit_events : list Event :=
  filled_events ++ [Submit; Submit].

End CreateUser.

(** * The buttons of the customer list view *)
Module ViewCustomersEvents.
Import ViewCustomers.

(** The component with what it has asked of the router: the customer list
    it holds, and the paths given to [navigate], oldest first. *)
Record View := {
  customers : list Customer;
  navigated : list string
}.

Definition initial_view : View :=
  {| customers := initial_customers; navigated := [] |}.

(** The two records of the initial list. *)
Definition john_doe : Customer :=
  {| id := 1; name := "John Doe"; DOB := "1990-05-15";
     phoneNumber := "1234567890"; password := "pass123";
     role := "Customer" |}.
Definition jane_smith : Customer :=
  {| id := 2; name := "Jane Smith"; DOB := "1995-08-20";
     phoneNumber := "9876543210"; password := "secure456";
     role := "Admin" |}.

(** A click on "Add Customer", or on the Edit or Delete button of the row
    at position [row] of the table body, with the answers the user gives to
    the dialog that follows. *)
Inductive Click :=
| ClickAdd
| ClickEdit (row : nat) (window : Window)
| ClickDelete (row : nat) (window : Window).

(** The [onClick] handlers.  The buttons of a data row call the handlers
    with the id the row was rendered from; the placeholder row has no
    button, and neither has a position past the end of the table ([None]). *)
Definition click (v : View) (c : Click) : option View :=
  match c with
  | ClickAdd =>
      Some {| customers := customers v;
              navigated := navigated v ++ ["/AdminDashboard/create_user"] |}
  | ClickEdit row window =>
      match render_tbody (customers v) !! row with
      | Some (DataRow _ _ edit_id _) =>
          Some {| customers := handleEdit window edit_id (customers v);
                  navigated := navigated v |}
      | _ => None
      end
  | ClickDelete row window =>
      match render_tbody (customers v) !! row with
      | Some (DataRow _ _ _ delete_id) =>
          Some {| customers := handleDelete window delete_id (customers v);
                  navigated := navigated v |}
      | _ => None
      end
  end.

Fixpoint clicks (v : View) (cs : list Click) : option View :=
  match cs with
  | [] => Some v
  | c :: cs' =>
      match click v c with
      | Some v' => clicks v' cs'
      | None => None
      end
  end.

(** The React key of a row ([key={customer.id}]); the placeholder row is
    given none. *)
Definition row_key (r : Row) : option Z :=
  match r with
  | DataRow key _ _ _ => Some key
  | PlaceholderRow _ _ => None
  end.

(** The number of table columns a row takes: its text cells and the cell
    with the two buttons, or the span of its single cell. *)
Definition row_width (r : Row) : nat :=
  match r with
  | DataRow _ cells _ _ => length cells + 1
  | PlaceholderRow colSpan _ => colSpan
  end.

(** The same record apart from its name. *)
Definition same_but_name (c c' : Customer) : Prop :=
  id c' = id c ∧ DOB c' = DOB c ∧ phoneNumber c' = phoneNumber c
  ∧ password c' = password c ∧ role c' = role c.

End ViewCustomersEvents.

(** * Logs of the create-user form *)
Module CreateUserLog.
Import CreateUser.

(** The settle events of a trace whose request failed for axios. *)
Definition count_rejected (evs : list Event) : nat :=
  length (List.filter
            (λ ev, match ev with
                   | Settle _ n => request_failed n
                   | _ => false
                   end) evs).

(** A request as the form is meant to send it: a POST to the create
    endpoint whose body has the five keys of the form, with a non-empty
    value under each key whose input is marked [required]. *)
Definition create_request (r : Request) : Prop :=
  method r = "POST"
  ∧ url r = create_url
  ∧ dom (body r) = dom empty_formData
  ∧ required_filled (body r) = true.

End CreateUserLog.

(** * KPI card *)
Module KpiCard.

(** The props of the component; [suffix] and [color] may be left out. *)
Record Props := {
  title : string;
  value : Z;
  suffix : option string;
  color : option string
}.

(** What the card shows: the colour of its text, the title, the number
    [CountUp] counts up to, and the text after the number. *)
Record Card := {
  style_color : string;
  title_text : string;
  countup_end : Z;
  suffix_text : string
}.

(** [color: color || "#333"] and [{suffix || ""}] *)
Definition KpiCard (props : Props) : Card :=
  {| style_color := or_else (color props) "#333";
     title_text := title props;
     countup_end := value props;
     suffix_text := or_else (suffix props) "" |}.

End KpiCard.

(** * Statistics dashboard *)
Module Statistics.

Definition COLORS : list string :=
  ["#FF6B6B"; "#4ECDC4"; "#FFD93D"; "#6A4C93"].

Definition dataBestSelling : list (string * Z) :=
  [("Pizza", 450%Z); ("Burger", 300%Z); ("Fries", 150%Z); ("Drinks", 100%Z)].

Definition newVsReturning : list (string * Z) :=
  [("New", 400%Z); ("Returning", 600%Z)].

(** A [<Cell>] of a pie: its React key and its fill colour, which is
    [undefined] ([None]) when the index read from [COLORS] is out of
    range. *)
Record Cell := {
  key : string;
  fill : option string
}.

(** [data.map((_, idx) =>
      <Cell key={`cell-${idx}`} fill={COLORS[idx % COLORS.length]} />)] *)
Definition cells {A} (data : list A) : list Cell :=
  imap (λ idx _, {| key := "cell-" +:+ pretty idx;
                    fill := COLORS !! (idx `mod` length COLORS) |}) data.

(** The KPI row of the dashboard. *)
Definition kpis : list KpiCard.Props :=
  [ {| KpiCard.title := "Total Revenue (Monthly)"; KpiCard.value := 12500;
       KpiCard.suffix := Some "$"; KpiCard.color := Some "#4caf50" |};
    {| KpiCard.title := "Orders Today"; KpiCard.value := 320;
       KpiCard.suffix := None; KpiCard.color := Some "#2196f3" |};
    {| KpiCard.title := "Avg Order Value"; KpiCard.value := 38;
       KpiCard.suffix := Some "$"; KpiCard.color := Some "#ff9800" |};
    {| KpiCard.title := "Returning Customers"; KpiCard.value := 480;
       KpiCard.suffix := None; KpiCard.color := Some "#f44336" |} ].

End Statistics.

(** * Properties of the customer list view *)
Section ViewCustomers_properties.
Import ViewCustomers.

Implicit Types (window : Window) (target : Z) (c : Customer).
Implicit Types (customers : list Customer).

(** The list a confirmed delete sets. *)
Lemma handleDelete_confirmed window target customers :
  confirm window confirm_delete_msg = true →
  handleDelete window target customers
  = filter (λ c, id c ≠ target) customers.
Proof. intros Hyes. unfold handleDelete. by rewrite Hyes. Qed.

(** The list an edit with a non-empty answer sets. *)
Lemma handleEdit_named window target customers s :
  prompt window prompt_name_msg = Some s → s ≠ "" →
  handleEdit window target customers
  = (λ c, if decide (id c = target) then with_name c s else c)
    <$> customers.
Proof.
  intros Hs Hne. unfold handleEdit. rewrite Hs. simpl.
  destruct (String.eqb_spec s ""); [done|]. done.
Qed.

Lemma handleEdit_ignored window target customers :
  truthy (prompt window prompt_name_msg) = false →
  handleEdit window target customers = customers.
Proof.
  intros Hf. unfold handleEdit.
  destruct (prompt window prompt_name_msg) as [s|]; [|done].
  by rewrite Hf.
Qed.

Lemma with_name_id c s : id (with_name c s) = id c.
Proof. done. Qed.

Lemma filter_unique_target target customers l1 c l2 :
  customers = l1 ++ c :: l2 →
  id c = target →
  (∀ c', c' ∈ l1 ++ l2 → id c' ≠ target) →
  filter (λ c, id c ≠ target) customers = l1 ++ l2.
Proof.
  intros -> Hc Hothers.
  rewrite filter_app, filter_cons_False by (intros ?; done).
  rewrite <- filter_app.
  induction (l1 ++ l2) as [|c' l IH]; [done|].
  rewrite filter_cons_True by (apply Hothers; left).
  f_equal. apply IH. intros c'' Hin. apply Hothers. by right.
Qed.

(** C1. A confirmed delete on a non-empty list removes the records whose
    id is the target and nothing else: no record of the result has the
    target id, every record with another id is kept, the result is the
    starting list with some records left out (nothing is added, changed or
    reordered), and when one record has the target id the result is the
    starting list without it. *)
Theorem handleDelete_removes_exactly_target window target customers :
  customers ≠ [] →
  confirm window confirm_delete_msg = true →
  (∀ c, c ∈ handleDelete window target customers → id c ≠ target)
  ∧ (∀ c, c ∈ customers → id c ≠ target →
          c ∈ handleDelete window target customers)
  ∧ handleDelete window target customers `sublist_of` customers
  ∧ length (handleDelete window target customers)
    + length (filter (λ c, id c = target) customers)
    = length customers
  ∧ (∀ l1 c l2,
        customers = l1 ++ c :: l2 →
        id c = target →
        (∀ c', c' ∈ l1 ++ l2 → id c' ≠ target) →
        handleDelete window target customers = l1 ++ l2).
Proof.
  intros _ Hyes. rewrite (handleDelete_confirmed _ _ _ Hyes).
  split_and!.
  - intros c Hin. by apply list_elem_of_filter in Hin as [? _].
  - intros c Hin Hne. by apply list_elem_of_filter.
  - apply sublist_filter.
  - clear Hyes. induction customers as [|c l IH]; [done|].
    rewrite !filter_cons.
    destruct (decide (id c ≠ target)), (decide (id c = target));
      simpl; try lia; done.
  - intros l1 c l2. apply filter_unique_target.
Qed.

Lemma handleDelete_removes_exactly_target_witness :
  handleDelete (answers true None) 1 initial_customers
  = [] ++ drop 1 initial_customers.
Proof.
  refine (proj2 (proj2 (proj2 (proj2
    (handleDelete_removes_exactly_target (answers true None) 1
       initial_customers _ _)))) [] _ _ _ _ _).
  - done.
  - reflexivity.
  - reflexivity.
  - reflexivity.
  - intros c' Hin. apply list_elem_of_singleton in Hin. by subst c'.
Defined.

(** C2. An edit with a non-empty supplied name gives a list of the same
    length in which, position by position, the record with the target id
    has the new name and its other fields as before, and every other
    record is as before; an edit whose prompt is answered with the empty
    string or cancelled gives the starting list. *)
Theorem handleEdit_changes_only_target_name window target customers :
  (∀ s, prompt window prompt_name_msg = Some s → s ≠ "" →
        Forall2 (edited target s) customers
                (handleEdit window target customers))
  ∧ (prompt window prompt_name_msg = Some ""
     ∨ prompt window prompt_name_msg = None →
     handleEdit window target customers = customers).
Proof.
  split.
  - intros s Hs Hne. rewrite (handleEdit_named _ _ _ _ Hs Hne).
    apply Forall2_fmap_r, Forall_Forall2_diag, Forall_forall.
    intros c _. unfold edited, compose.
    case_decide; simpl; split_and!; try done; intros; congruence.
  - intros [H|H]; apply handleEdit_ignored; by rewrite H.
Qed.

Lemma handleEdit_changes_only_target_name_witness :
  Forall2 (edited 2 "X") initial_customers
          (handleEdit (answers false (Some "X")) 2 initial_customers)
  ∧ handleEdit (answers false (Some "")) 2 initial_customers
    = initial_customers
  ∧ handleEdit (answers false None) 2 initial_customers
    = initial_customers.
Proof.
  split_and!.
  - apply (proj1 (handleEdit_changes_only_target_name
                    (answers false (Some "X")) 2 initial_customers) "X");
      [reflexivity | discriminate].
  - apply (proj2 (handleEdit_changes_only_target_name
                    (answers false (Some "")) 2 initial_customers)).
    left. reflexivity.
  - apply (proj2 (handleEdit_changes_only_target_name
                    (answers false None) 2 initial_customers)).
    right. reflexivity.
Defined.

Lemma data_rows_customer_rows customers :
  data_rows (customer_row <$> customers) = customer_row <$> customers.
Proof.
  induction customers as [|c l IH]; [done|].
  unfold data_rows in *. simpl. f_equal. apply IH.
Qed.

Lemma placeholder_rows_customer_rows customers :
  placeholder_rows (customer_row <$> customers) = [].
Proof. induction customers as [|c l IH]; [done|]. apply IH. Qed.

(** C6. The table body of an empty customer list has exactly one
    placeholder row, spanning all the columns of the table, and no data
    row; the table body of a list of n > 0 customers has exactly n data
    rows, one per customer in order, and no placeholder row. *)
Theorem render_tbody_placeholder_or_data customers :
  (length customers = 0 →
     placeholder_rows (render_tbody customers)
     = [PlaceholderRow (length table_header) "No customers found"]
     ∧ data_rows (render_tbody customers) = [])
  ∧ (0 < length customers →
     length (data_rows (render_tbody customers)) = length customers
     ∧ data_rows (render_tbody customers) = customer_row <$> customers
     ∧ placeholder_rows (render_tbody customers) = []).
Proof.
  unfold render_tbody. split; intros Hlen.
  - apply nil_length_inv in Hlen as ->. done.
  - destruct (decide (length customers = 0)) as [Hz|_]; [lia|].
    rewrite app_nil_r, data_rows_customer_rows,
      placeholder_rows_customer_rows, length_fmap.
    done.
Qed.

Lemma render_tbody_placeholder_or_data_witness :
  (placeholder_rows (render_tbody [])
   = [PlaceholderRow (length table_header) "No customers found"]
   ∧ data_rows (render_tbody []) = [])
  ∧ (length (data_rows (render_tbody initial_customers)) = 2
     ∧ data_rows (render_tbody initial_customers)
       = customer_row <$> initial_customers
     ∧ placeholder_rows (render_tbody initial_customers) = []).
Proof.
  split.
  - apply (proj1 (render_tbody_placeholder_or_data [])). reflexivity.
  - apply (proj2 (render_tbody_placeholder_or_data initial_customers)).
    simpl. lia.
Defined.

(** C9. On a list whose ids are pairwise distinct, the list a delete
    gives and the list an edit gives have pairwise distinct ids, whatever
    the user answers; an edit leaves the id of the record at every position
    as it is, and every record a delete keeps is a record of the starting
    list, kept in its place in the order. *)
Theorem handlers_preserve_unique_ids window target customers :
  NoDup (id <$> customers) →
  NoDup (id <$> handleDelete window target customers)
  ∧ NoDup (id <$> handleEdit window target customers)
  ∧ id <$> handleEdit window target customers = id <$> customers
  ∧ handleDelete window target customers `sublist_of` customers.
Proof.
  intros Hnd.
  assert (Hsub : handleDelete window target customers
                 `sublist_of` customers).
  { unfold handleDelete. destruct (confirm _ _); [|done].
    apply sublist_filter. }
  assert (Hid : id <$> handleEdit window target customers
                = id <$> customers).
  { destruct (truthy (prompt window prompt_name_msg)) eqn:Ht.
    - destruct (prompt window prompt_name_msg) as [s|] eqn:Hs; [|done].
      rewrite (handleEdit_named _ _ _ s Hs).
      + rewrite <- list_fmap_compose. apply list_fmap_ext.
        intros i c _. simpl. by case_decide.
      + intros ->. done.
    - by rewrite handleEdit_ignored. }
  split_and!; [|by rewrite Hid|done|done].
  exact (sublist_NoDup _ _ Hnd (fmap_sublist id _ _ Hsub)).
Qed.

Lemma handlers_preserve_unique_ids_witness :
  NoDup (id <$> handleDelete (answers true (Some "X")) 1
                  initial_customers)
  ∧ NoDup (id <$> handleEdit (answers true (Some "X")) 1 initial_customers)
  ∧ id <$> handleEdit (answers true (Some "X")) 1 initial_customers
    = id <$> initial_customers
  ∧ handleDelete (answers true (Some "X")) 1 initial_customers
    `sublist_of` initial_customers.
Proof.
  apply (handlers_preserve_unique_ids (answers true (Some "X")) 1
           initial_customers).
  simpl. apply NoDup_cons. split.
  - intros Hin. apply list_elem_of_singleton in Hin. discriminate.
  - apply NoDup_singleton.
Defined.

(** C10. When the confirmation dialog of a delete is declined, the
    customer list after the action is the list before it. *)
Theorem handleDelete_declined_unchanged window target customers :
  confirm window confirm_delete_msg = false →
  handleDelete window target customers = customers.
Proof. intros Hno. unfold handleDelete. by rewrite Hno. Qed.

Lemma handleDelete_declined_unchanged_witness :
  handleDelete (answers false None) 1 initial_customers = initial_customers.
Proof.
  apply (handleDelete_declined_unchanged (answers false None) 1
           initial_customers).
  reflexivity.
Defined.

End ViewCustomers_properties.

(** * Properties of the create-user form *)
Section CreateUser_properties.
Import CreateUser.

Implicit Types (s : State) (n : NetResult) (evs : list Event).

(** ** The keys of the form data *)

Lemma dom_empty_formData :
  dom empty_formData
  = ({[ "name"; "DOB"; "phoneNumber"; "password"; "role" ]} : gset string).
Proof.
  unfold empty_formData. rewrite !dom_insert_L, dom_empty_L.
  apply set_eq. intros k.
  rewrite !elem_of_union, !elem_of_singleton, elem_of_empty. tauto.
Qed.

Lemma field_names_keys (k : string) :
  k ∈ field_names
  ↔ k ∈ ({[ "name"; "DOB"; "phoneNumber"; "password"; "role" ]} : gset string).
Proof.
  unfold field_names, inputs. simpl.
  rewrite !elem_of_cons, elem_of_nil, !elem_of_union, !elem_of_singleton.
  tauto.
Qed.

Lemma step_formData_keys s ev s' :
  step s ev = Some s' →
  dom (formData s) = dom empty_formData →
  dom (formData s') = dom empty_formData.
Proof.
  intros Hstep Hdom. destruct ev as [k v| |i n]; simpl in Hstep.
  - case_decide as Hk; [|done]. injection Hstep as <-. simpl.
    unfold handleChange. rewrite dom_insert_L, Hdom.
    apply field_names_keys in Hk. rewrite dom_empty_formData.
    apply subseteq_union_1_L, singleton_subseteq_l, Hk.
  - destruct (required_filled _); [|done]. by injection Hstep as <-.
  - destruct (pending s !! i); [|done]. injection Hstep as <-.
    unfold handleSubmit_resume.
    destruct (axios_settle n) as [res|err]; [|done].
    by destruct (_ || _).
Qed.

Lemma run_formData_keys evs : ∀ s s',
  run s evs = Some s' →
  dom (formData s) = dom empty_formData →
  dom (formData s') = dom empty_formData.
Proof.
  induction evs as [|ev evs IH]; intros s s' Hrun Hdom; simpl in Hrun.
  - by injection Hrun as <-.
  - destruct (step s ev) as [s1|] eqn:Hstep; [|done].
    eapply IH; [done|]. by eapply step_formData_keys.
Qed.

Lemma reachable_formData_keys s :
  reachable s →
  dom (formData s)
  = ({[ "name"; "DOB"; "phoneNumber"; "password"; "role" ]} : gset string).
Proof.
  intros [evs Hrun]. rewrite <- dom_empty_formData.
  by eapply run_formData_keys.
Qed.


Lemma reachable_filled : reachable filled_state.
Proof. exists filled_events. vm_compute. reflexivity. Qed.

(** ** Submitting *)

(** C3. In every reachable state of the form, the submit handler issues
    exactly one request: a POST to the fixed create endpoint whose body is
    the form data at submit time, with exactly the keys name, DOB,
    phoneNumber, password and role, each holding the value its input
    displays. *)
Theorem handleSubmit_posts_formData_once s :
  reachable s →
  ∃ r, sent (handleSubmit s) = sent s ++ [r]
     ∧ pending (handleSubmit s) = pending s ++ [r]
     ∧ method r = "POST"
     ∧ url r = "http://localhost:5000/api/auth/create"
     ∧ dom (body r)
       = ({[ "name"; "DOB"; "phoneNumber"; "password"; "role" ]}
          : gset string)
     ∧ body r = formData s
     ∧ ∀ i, i ∈ inputs →
            is_Some (body r !! name i)
            ∧ body r !! name i = displayed (formData s) i.
Proof.
  intros Hreach.
  exists {| method := "POST"; url := create_url; body := formData s |}.
  split_and!; try done.
  - by apply reachable_formData_keys.
  - intros i Hi. split; [|done]. simpl.
    apply elem_of_dom. rewrite (reachable_formData_keys s Hreach).
    apply field_names_keys. unfold field_names.
    by apply list_elem_of_fmap_2.
Qed.

Lemma handleSubmit_posts_formData_once_witness :
  ∃ r, sent (handleSubmit filled_state) = sent filled_state ++ [r]
     ∧ pending (handleSubmit filled_state) = pending filled_state ++ [r]
     ∧ method r = "POST"
     ∧ url r = "http://localhost:5000/api/auth/create"
     ∧ dom (body r)
       = ({[ "name"; "DOB"; "phoneNumber"; "password"; "role" ]}
          : gset string)
     ∧ body r = formData filled_state
     ∧ ∀ i, i ∈ inputs →
            is_Some (body r !! name i)
            ∧ body r !! name i = displayed (formData filled_state) i.
Proof.
  apply (handleSubmit_posts_formData_once filled_state).
  exists filled_events. vm_compute. reflexivity.
Defined.

(** The submit event, when the browser lets it through, runs the handler. *)
Lemma step_Submit s s' :
  step s Submit = Some s' → s' = handleSubmit s.
Proof.
  simpl. destruct (required_filled _); [|done]. by intros [= <-].
Qed.

(** A submission is the submit event followed by the settling of the
    request it issued. *)
Lemma run_submission s n :
  required_filled (formData s) = true →
  run s [Submit; Settle (length (pending s)) n] = Some (submission n s).
Proof.
  intros Hreq. simpl. rewrite Hreq. simpl.
  rewrite lookup_app_r by done. by rewrite Nat.sub_diag.
Qed.

Lemma status_ok_resolved n :
  status_ok n = true →
  ∃ res, axios_settle n = Resolved res
         ∧ ((status res =? 201)%Z || (status res =? 200)%Z) = true.
Proof.
  destruct n as [|r]; [done|]. simpl. intros Hok.
  apply bool_decide_eq_true in Hok. exists r.
  unfold validateStatus.
  destruct Hok as [-> | ->]; done.
Qed.

Lemma status_not_ok_formData n s :
  status_ok n = false →
  formData (handleSubmit_resume (axios_settle n) s) = formData s.
Proof.
  intros Hok. unfold handleSubmit_resume.
  destruct (axios_settle n) as [res|err] eqn:Hsettle; [|done].
  destruct n as [|r]; [done|]. simpl in *.
  destruct (validateStatus (status r)); [|done].
  injection Hsettle as <-.
  apply bool_decide_eq_false in Hok.
  destruct (Z.eqb_spec (status r) 201), (Z.eqb_spec (status r) 200);
    simpl; try done; destruct Hok; auto.
Qed.

(** C4. For every form state and every outcome of the request: when the
    response has status 200 or 201, every field of the form is the empty
    string after the submission; when the request fails (no response, or a
    response with another status), the form data after the submission is
    the form data at submit time. *)
Theorem submission_clears_or_keeps_formData s n :
  (status_ok n = true →
     formData (submission n s) = empty_formData
     ∧ ∀ i, i ∈ inputs → displayed (formData (submission n s)) i = Some "")
  ∧ (status_ok n = false →
     formData (submission n s) = formData s).
Proof.
  split; intros Hok; unfold submission.
  - destruct (status_ok_resolved n Hok) as (res & -> & Hst).
    unfold handleSubmit_resume. rewrite Hst.
    split; [done|]. intros i Hi. simpl. unfold displayed.
    repeat (apply elem_of_cons in Hi as [-> | Hi]; [reflexivity|]).
    by apply elem_of_nil in Hi.
  - by rewrite status_not_ok_formData.
Qed.

Lemma submission_clears_or_keeps_formData_witness :
  (formData (submission
               (Responded {| status := 201; data := None |}) filled_state)
   = empty_formData
   ∧ ∀ i, i ∈ inputs →
          displayed (formData (submission
               (Responded {| status := 201; data := None |}) filled_state)) i
          = Some "")
  ∧ formData (submission
                (Responded {| status := 500; data := None |}) filled_state)
    = formData filled_state.
Proof.
  split.
  - apply (proj1 (submission_clears_or_keeps_formData filled_state
                    (Responded {| status := 201; data := None |}))).
    reflexivity.
  - apply (proj2 (submission_clears_or_keeps_formData filled_state
                    (Responded {| status := 500; data := None |}))).
    reflexivity.
Defined.

(** ** Reporting a failure *)

Lemma rejected_err_message n err :
  axios_settle n = Rejected err → err_message err = server_message n.
Proof.
  destruct n as [|r]; simpl.
  - by intros [= <-].
  - destruct (validateStatus (status r)); [done|]. by intros [= <-].
Qed.

Lemma request_failed_rejected n :
  request_failed n = true → ∃ err, axios_settle n = Rejected err.
Proof.
  destruct n as [|r]; simpl; [by eexists|].
  destruct (validateStatus (status r)); [done|]. by eexists.
Qed.

(** A response axios accepts whose status is neither 200 nor 201 is
    reported with a fixed text of its own, whatever its body holds. *)
Lemma resolved_other_status_alert s r :
  validateStatus (status r) = true →
  status r ≠ 200%Z → status r ≠ 201%Z →
  alerts (submission (Responded r) s)
  = alerts s ++ [JsString "Error creating user."].
Proof.
  intros Hv H200 H201. unfold submission. simpl. rewrite Hv. simpl.
  destruct (Z.eqb_spec (status r) 201), (Z.eqb_spec (status r) 200); done.
Qed.

(** C5, as stated, fails when the server's message is the empty string:
    the field is present, and the alert shows the fallback text. *)
Lemma alert_empty_server_message_counterexample :
  ¬ (request_failed empty_message_response = true →
     last (alerts (submission empty_message_response filled_state))
     = Some (default (JsString fallback_message)
               (server_message empty_message_response))).
Proof. intros H. specialize (H eq_refl). vm_compute in H. discriminate. Qed.

(** The falsy values, one by one. *)
Lemma to_boolean_false (v : JsValue) :
  to_boolean v = false
  ↔ v = JsNull ∨ v = JsBool false ∨ v = JsNum NaN
    ∨ (∃ negative, v = JsNum (Zero negative)) ∨ v = JsString "".
Proof.
  split.
  - destruct v as [|[]|[]| str| |]; simpl; try done; eauto 6.
    destruct (String.eqb_spec str ""); [|done]. subst str. eauto 6.
  - intros [-> | [-> | [-> | [[negative ->] | ->]]]]; done.
Qed.

(** C5, amended. For every failed request (no response, or a response with
    a status outside 200..299) the submission shows exactly one alert; it
    shows the message field of the response body when that field is
    present and truthy (not [null], [false], a zero, [NaN] or the empty
    string), and the fixed fallback text otherwise. *)
Theorem rejected_alert_prefers_truthy_server_message s n :
  request_failed n = true →
  alerts (submission n s)
  = alerts s
    ++ [match server_message n with
        | Some m => if to_boolean m then m else JsString fallback_message
        | None => JsString fallback_message
        end].
Proof.
  intros Hfail. destruct (request_failed_rejected n Hfail) as [err Herr].
  unfold submission. rewrite Herr. simpl.
  by rewrite (rejected_err_message n err Herr).
Qed.

Lemma rejected_alert_prefers_truthy_server_message_witness :
  alerts (submission
            (Responded {| status := 409;
                          data := Some {| message := Some (JsString "Phone in use") |} |})
            filled_state)
  = [JsString "Phone in use"]
  ∧ alerts (submission object_message_response filled_state)
    = [JsObject [("phoneNumber", JsString "taken")]]
  ∧ alerts (submission empty_message_response filled_state)
    = [JsString "Something went wrong."]
  ∧ alerts (submission zero_message_response filled_state)
    = [JsString "Something went wrong."]
  ∧ alerts (submission false_message_response filled_state)
    = [JsString "Something went wrong."]
  ∧ alerts (submission NetworkError filled_state)
    = [JsString "Something went wrong."].
Proof.
  split_and!.
  - apply (rejected_alert_prefers_truthy_server_message filled_state
             (Responded {| status := 409;
                           data := Some {| message := Some (JsString "Phone in use") |} |})).
    reflexivity.
  - apply (rejected_alert_prefers_truthy_server_message filled_state
             object_message_response).
    reflexivity.
  - apply (rejected_alert_prefers_truthy_server_message filled_state
             empty_message_response).
    reflexivity.
  - apply (rejected_alert_prefers_truthy_server_message filled_state
             zero_message_response).
    reflexivity.
  - apply (rejected_alert_prefers_truthy_server_message filled_state
             false_message_response).
    reflexivity.
  - apply (rejected_alert_prefers_truthy_server_message filled_state
             NetworkError).
    reflexivity.
Defined.

(** ** Pending requests *)

Lemma handleSubmit_resume_network o s :
  pending (handleSubmit_resume o s) = pending s
  ∧ sent (handleSubmit_resume o s) = sent s.
Proof.
  unfold handleSubmit_resume. destruct o as [res|err]; [|done].
  by destruct (_ || _).
Qed.

Lemma step_counts s ev s' :
  step s ev = Some s' →
  length (pending s') + count_settle [ev]
  = length (pending s) + count_submit [ev]
  ∧ length (sent s') = length (sent s) + count_submit [ev].
Proof.
  intros Hstep. destruct ev as [k v| |i n]; simpl in Hstep.
  - case_decide; [|done]. injection Hstep as <-.
    unfold count_settle, count_submit. simpl. lia.
  - destruct (required_filled _); [|done]. injection Hstep as <-.
    unfold count_settle, count_submit. simpl. rewrite !length_app. simpl. lia.
  - destruct (pending s !! i) as [r|] eqn:Hi; [|done]. injection Hstep as <-.
    destruct (handleSubmit_resume_network (axios_settle n)
                (settle_pending i s)) as [-> ->].
    unfold count_settle, count_submit. simpl.
    rewrite length_delete by eauto.
    apply lookup_lt_Some in Hi. lia.
Qed.

Lemma run_counts evs : ∀ s s',
  run s evs = Some s' →
  length (pending s') + count_settle evs
  = length (pending s) + count_submit evs
  ∧ length (sent s') = length (sent s) + count_submit evs.
Proof.
  induction evs as [|ev evs IH]; intros s s' Hrun; simpl in Hrun.
  - injection Hrun as <-. unfold count_settle, count_submit. simpl. lia.
  - destruct (step s ev) as [s1|] eqn:Hstep; [|done].
    destruct (IH _ _ Hrun) as [IHp IHs].
    destruct (step_counts _ _ _ Hstep) as [Hp Hs].
    unfold count_settle, count_submit in *. simpl in *.
    destruct ev; simpl in *; lia.
Qed.

(** C7, as stated, fails: nothing keeps a second submit event from issuing
    a request while the first is pending. *)
Lemma double_submit_counterexample :
  ¬ (∀ s, run initial_state double_submit_events = Some s →
          (length (pending s) ≤ 1)%nat).
Proof.
  intros H.
  specialize (H (handleSubmit (handleSubmit filled_state))).
  vm_compute in H. specialize (H eq_refl). lia.
Qed.

(** C7, amended. In every reachable state of the form the number of
    pending requests is the number of submit events so far less the number
    of requests settled so far, and the number of requests issued is the
    number of submit events: each submit event issues exactly one request,
    also while earlier requests are pending, and no other event issues
    one. *)
Theorem pending_requests_count evs s :
  run initial_state evs = Some s →
  length (pending s) + count_settle evs = count_submit evs
  ∧ length (sent s) = count_submit evs.
Proof. intros Hrun. apply (run_counts evs initial_state s Hrun). Qed.

Lemma pending_requests_count_witness :
  length (pending (handleSubmit (handleSubmit filled_state)))
  + count_settle double_submit_events
  = count_submit double_submit_events
  ∧ length (sent (handleSubmit (handleSubmit filled_state)))
    = count_submit double_submit_events.
Proof.
  apply (pending_requests_count double_submit_events
           (handleSubmit (handleSubmit filled_state))).
  vm_compute. reflexivity.
Defined.

(** ** The fields of the form *)

(** C8. The form has exactly five inputs, named name, DOB, phoneNumber,
    password and role; exactly name, phoneNumber and password are marked
    required, and DOB and role are not. *)
Theorem form_fields_required :
  length inputs = 5
  ∧ field_names = ["name"; "DOB"; "phoneNumber"; "password"; "role"]
  ∧ required_names = ["name"; "phoneNumber"; "password"]
  ∧ optional_names = ["DOB"; "role"]
  ∧ dom empty_formData = (list_to_set field_names : gset string).
Proof.
  split_and!; reflexivity.
Qed.

End CreateUser_properties.

(** * How the actions of the customer list view compose *)
Section ViewCustomers_composition.
Import ViewCustomers.

Implicit Types (window w : Window) (target : Z) (c : Customer).
Implicit Types (customers : list Customer).

Lemma filter_absent target customers :
  (∀ c, c ∈ customers → id c ≠ target) →
  filter (λ c, id c ≠ target) customers = customers.
Proof.
  induction customers as [|c l IH]; intros Habs; [done|].
  rewrite filter_cons_True by (apply Habs; left).
  f_equal. apply IH. intros c' Hin. apply Habs. by right.
Qed.

Lemma rename_absent target s customers :
  (∀ c, c ∈ customers → id c ≠ target) →
  (λ c, if decide (id c = target) then with_name c s else c) <$> customers
  = customers.
Proof.
  induction customers as [|c l IH]; intros Habs; [done|].
  rewrite fmap_cons. f_equal.
  - case_decide as Heq; [|done]. by destruct (Habs c (list_elem_of_here _ _)).
  - apply IH. intros c' Hin. apply Habs. by right.
Qed.

(** An edit, spelled out on the answer of the prompt. *)
Lemma handleEdit_cases window target customers :
  (∃ s, prompt window prompt_name_msg = Some s ∧ s ≠ ""
        ∧ handleEdit window target customers
          = (λ c, if decide (id c = target) then with_name c s else c)
            <$> customers)
  ∨ (truthy (prompt window prompt_name_msg) = false
     ∧ handleEdit window target customers = customers).
Proof.
  destruct (truthy (prompt window prompt_name_msg)) eqn:Ht.
  - left. destruct (prompt window prompt_name_msg) as [s|] eqn:Hs; [|done].
    assert (s ≠ "") by (intros ->; done).
    exists s. split_and!; [done..|]. by apply handleEdit_named.
  - right. split; [done|]. by apply handleEdit_ignored.
Qed.

(** X1. When no record of the list has the target id, neither action
    changes the list, whatever the user answers to the dialogs. *)
Theorem handlers_absent_target_unchanged window target customers :
  (∀ c, c ∈ customers → id c ≠ target) →
  handleDelete window target customers = customers
  ∧ handleEdit window target customers = customers.
Proof.
  intros Habs. split.
  - unfold handleDelete. destruct (confirm _ _); [|done].
    by apply filter_absent.
  - destruct (handleEdit_cases window target customers)
      as [(s & _ & _ & ->) | [_ ->]]; [|done].
    by apply rename_absent.
Qed.

Lemma handlers_absent_target_unchanged_witness :
  handleDelete (answers true (Some "X")) 7 initial_customers
  = initial_customers
  ∧ handleEdit (answers true (Some "X")) 7 initial_customers
    = initial_customers.
Proof.
  apply (handlers_absent_target_unchanged (answers true (Some "X")) 7
           initial_customers).
  intros c Hc.
  repeat (apply elem_of_cons in Hc as [-> | Hc]; [discriminate|]).
  by apply elem_of_nil in Hc.
Defined.

(** X2. Deleting is idempotent and deletes commute: a second delete of
    the same id changes nothing, and two deletes give the same list in
    either order, whatever the user answers to each confirmation. *)
Theorem handleDelete_idempotent_commutes w1 w2 t1 t2 customers :
  handleDelete w1 t1 (handleDelete w1 t1 customers)
  = handleDelete w1 t1 customers
  ∧ handleDelete w1 t1 (handleDelete w2 t2 customers)
    = handleDelete w2 t2 (handleDelete w1 t1 customers).
Proof.
  unfold handleDelete. split.
  - destruct (confirm w1 _); [|done].
    apply filter_absent. intros c Hc.
    by apply list_elem_of_filter in Hc as [? _].
  - destruct (confirm w1 _), (confirm w2 _); try done.
    rewrite !list_filter_filter. apply list_filter_iff. tauto.
Qed.

(** X3. An edit and a delete commute: editing and then deleting gives
    the list that deleting and then editing gives, for any two target ids
    and any answers. *)
Theorem handleEdit_handleDelete_commute w1 w2 t1 t2 customers :
  handleDelete w2 t2 (handleEdit w1 t1 customers)
  = handleEdit w1 t1 (handleDelete w2 t2 customers).
Proof.
  destruct (handleEdit_cases w1 t1 customers)
    as [(s & Hs & Hne & ->) | [Ht ->]].
  - rewrite (handleEdit_named _ _ _ _ Hs Hne).
    unfold handleDelete. destruct (confirm w2 _); [|done].
    induction customers as [|c l IH]; [done|].
    rewrite fmap_cons, !filter_cons.
    assert (Hid : id (if decide (id c = t1) then with_name c s else c)
                  = id c) by (by case_decide).
    rewrite Hid. destruct (decide (id c ≠ t2)); [|done].
    rewrite fmap_cons. by f_equal.
  - by rewrite handleEdit_ignored.
Qed.

(** X4. Of two edits of the same id the later one decides when it
    supplies a non-empty name: the list is the one the later edit alone
    gives, whatever the earlier prompt was answered. *)
Theorem handleEdit_last_name_wins w1 w2 target customers :
  truthy (prompt w2 prompt_name_msg) = true →
  handleEdit w2 target (handleEdit w1 target customers)
  = handleEdit w2 target customers.
Proof.
  intros H2.
  destruct (handleEdit_cases w1 target customers)
    as [(s1 & Hs1 & Hne1 & ->) | [Ht ->]]; [|done].
  destruct (prompt w2 prompt_name_msg) as [s2|] eqn:Hs2; [|done].
  assert (s2 ≠ "") as Hne2 by (intros ->; done).
  rewrite !(handleEdit_named _ _ _ _ Hs2 Hne2).
  rewrite <- list_fmap_compose. apply list_fmap_ext.
  intros i c _. simpl. destruct (decide (id c = target)) as [Heq|Hneq].
  - simpl. by rewrite decide_True.
  - by rewrite decide_False.
Qed.

Lemma handleEdit_last_name_wins_witness :
  handleEdit (answers true (Some "Y")) 2
    (handleEdit (answers true (Some "X")) 2 initial_customers)
  = handleEdit (answers true (Some "Y")) 2 initial_customers.
Proof.
  apply (handleEdit_last_name_wins (answers true (Some "X"))
           (answers true (Some "Y")) 2 initial_customers).
  reflexivity.
Defined.

End ViewCustomers_composition.

(** * The table of the customer list view and its buttons *)
Section ViewCustomers_table.
Import ViewCustomers ViewCustomersEvents.

Implicit Types (w : Window) (c : Customer) (v : View).
Implicit Types (cs : list Customer).

Lemma render_tbody_lookup cs i c :
  cs !! i = Some c → render_tbody cs !! i = Some (customer_row c).
Proof.
  intros Hi. unfold render_tbody.
  rewrite lookup_app_l
    by (rewrite length_fmap; by eapply lookup_lt_Some).
  by rewrite list_lookup_fmap, Hi.
Qed.

Lemma NoDup_ids_other cs i j c c' :
  NoDup (id <$> cs) → cs !! i = Some c → cs !! j = Some c' →
  id c' = id c → j = i.
Proof.
  intros Hnd Hi Hj Heq.
  apply (NoDup_lookup (id <$> cs) j i (id c) Hnd).
  - by rewrite list_lookup_fmap, Hj, <- Heq.
  - by rewrite list_lookup_fmap, Hi.
Qed.

Lemma filter_row cs i c :
  NoDup (id <$> cs) → cs !! i = Some c →
  filter (λ c', id c' ≠ id c) cs = delete i cs.
Proof.
  intros Hnd Hi. rewrite delete_take_drop.
  apply (filter_unique_target _ _ _ c); [|done|].
  - symmetry. by apply take_drop_middle.
  - intros c' Hin Heq.
    apply elem_of_app in Hin as [Hin|Hin];
      apply list_elem_of_lookup in Hin as [j Hj].
    + apply lookup_take_Some in Hj as [Hj Hlt].
      pose proof (NoDup_ids_other _ _ _ _ _ Hnd Hi Hj Heq). lia.
    + rewrite lookup_drop in Hj.
      pose proof (NoDup_ids_other _ _ _ _ _ Hnd Hi Hj Heq). lia.
Qed.

Lemma rename_row cs i c s :
  NoDup (id <$> cs) → cs !! i = Some c →
  (λ c', if decide (id c' = id c) then with_name c' s else c') <$> cs
  = <[i := with_name c s]> cs.
Proof.
  intros Hnd Hi. apply list_eq. intros j.
  rewrite list_lookup_fmap.
  destruct (decide (j = i)) as [->|Hji].
  - rewrite Hi, list_lookup_insert_eq by (by eapply lookup_lt_Some).
    simpl. by rewrite decide_True.
  - rewrite list_lookup_insert_ne by done.
    destruct (cs !! j) as [c'|] eqn:Hj; [|done]. simpl.
    case_decide as Heq; [|done].
    by destruct Hji; eapply NoDup_ids_other.
Qed.

(** X5. When the ids of the list are pairwise distinct, a click on the
    Delete button of the row at position i, confirmed, removes the record
    at position i and no other, and asks nothing of the router. *)
Theorem click_delete_removes_row v i c w :
  NoDup (id <$> customers v) →
  customers v !! i = Some c →
  confirm w confirm_delete_msg = true →
  click v (ClickDelete i w)
  = Some {| customers := delete i (customers v);
            navigated := navigated v |}.
Proof.
  intros Hnd Hi Hyes. simpl.
  rewrite (render_tbody_lookup _ _ _ Hi). simpl.
  rewrite (handleDelete_confirmed _ _ _ Hyes).
  by rewrite (filter_row _ _ _ Hnd Hi).
Qed.

Lemma click_delete_removes_row_witness :
  click initial_view (ClickDelete 1 (answers true None))
  = Some {| customers := delete 1 initial_customers; navigated := [] |}.
Proof.
  apply (click_delete_removes_row initial_view 1 jane_smith
           (answers true None)).
  - simpl. apply NoDup_cons. split; [|apply NoDup_singleton].
    intros Hin. apply list_elem_of_singleton in Hin. discriminate.
  - reflexivity.
  - reflexivity.
Defined.

(** X6. When the ids of the list are pairwise distinct, a click on the
    Edit button of the row at position i, answered with a non-empty name,
    replaces the record at position i by the same record under the new
    name and leaves every other position as it is. *)
Theorem click_edit_renames_row v i c w s :
  NoDup (id <$> customers v) →
  customers v !! i = Some c →
  prompt w prompt_name_msg = Some s → s ≠ "" →
  click v (ClickEdit i w)
  = Some {| customers := <[i := with_name c s]> (customers v);
            navigated := navigated v |}.
Proof.
  intros Hnd Hi Hs Hne. simpl.
  rewrite (render_tbody_lookup _ _ _ Hi). simpl.
  rewrite (handleEdit_named _ _ _ _ Hs Hne).
  by rewrite (rename_row _ _ _ _ Hnd Hi).
Qed.

Lemma click_edit_renames_row_witness :
  click initial_view (ClickEdit 0 (answers false (Some "Johnny")))
  = Some {| customers :=
              <[0 := with_name john_doe "Johnny"]> initial_customers;
            navigated := [] |}.
Proof.
  apply (click_edit_renames_row initial_view 0 john_doe
           (answers false (Some "Johnny")) "Johnny").
  - simpl. apply NoDup_cons. split; [|apply NoDup_singleton].
    intros Hin. apply list_elem_of_singleton in Hin. discriminate.
  - reflexivity.
  - reflexivity.
  - discriminate.
Defined.

(** ** What no click does *)

Lemma same_but_name_refl c : same_but_name c c.
Proof. by unfold same_but_name. Qed.

Lemma same_but_name_trans c1 c2 c3 :
  same_but_name c1 c2 → same_but_name c2 c3 → same_but_name c1 c3.
Proof. unfold same_but_name. intuition congruence. Qed.

Lemma handleEdit_ids w t cs : id <$> handleEdit w t cs = id <$> cs.
Proof.
  destruct (handleEdit_cases w t cs) as [(s & _ & _ & ->) | [_ ->]]; [|done].
  rewrite <- list_fmap_compose. apply list_fmap_ext.
  intros i c _. simpl. by case_decide.
Qed.

Lemma handleEdit_records w t cs c' :
  c' ∈ handleEdit w t cs → ∃ c, c ∈ cs ∧ same_but_name c c'.
Proof.
  destruct (handleEdit_cases w t cs) as [(s & _ & _ & ->) | [_ ->]].
  - intros Hin. apply list_elem_of_fmap in Hin as (c & -> & Hc).
    exists c. split; [done|]. case_decide; by unfold same_but_name.
  - intros Hin. exists c'. split; [done|]. apply same_but_name_refl.
Qed.

Lemma handleDelete_sublist w t cs : handleDelete w t cs `sublist_of` cs.
Proof.
  unfold handleDelete. destruct (confirm _ _); [|done]. apply sublist_filter.
Qed.

Lemma click_keeps_records v k v' :
  click v k = Some v' →
  id <$> customers v' `sublist_of` id <$> customers v
  ∧ ∀ c', c' ∈ customers v' →
          ∃ c, c ∈ customers v ∧ same_but_name c c'.
Proof.
  destruct k as [|i w|i w]; simpl.
  - intros [= <-]. simpl. split; [done|].
    intros c' Hin. exists c'. split; [done|]. apply same_but_name_refl.
  - destruct (render_tbody (customers v) !! i) as [[key cells e d|]|];
      [|done..].
    intros [= <-]. simpl. split.
    + by rewrite handleEdit_ids.
    + apply handleEdit_records.
  - destruct (render_tbody (customers v) !! i) as [[key cells e d|]|];
      [|done..].
    intros [= <-]. simpl. split.
    + apply fmap_sublist, handleDelete_sublist.
    + intros c' Hin. exists c'. split; [|apply same_but_name_refl].
      eapply elem_of_sublist; [done|]. apply handleDelete_sublist.
Qed.

(** X7. No sequence of clicks adds a customer or changes anything but
    names: after any clicks, the ids of the list are the ids it started
    with, some left out, in the same order; so the list has not grown and
    distinct ids have stayed distinct; and every record is a record of the
    starting list with at most its name changed. *)
Theorem clicks_keep_records ks : ∀ v v',
  clicks v ks = Some v' →
  id <$> customers v' `sublist_of` id <$> customers v
  ∧ (length (customers v') ≤ length (customers v))%nat
  ∧ (NoDup (id <$> customers v) → NoDup (id <$> customers v'))
  ∧ ∀ c', c' ∈ customers v' →
          ∃ c, c ∈ customers v ∧ same_but_name c c'.
Proof.
  assert (Hcore : ∀ v v', clicks v ks = Some v' →
    id <$> customers v' `sublist_of` id <$> customers v
    ∧ ∀ c', c' ∈ customers v' →
            ∃ c, c ∈ customers v ∧ same_but_name c c').
  { induction ks as [|k ks IH]; intros v v' Hrun; simpl in Hrun.
    - injection Hrun as <-. split; [done|].
      intros c' Hin. exists c'. split; [done|]. apply same_but_name_refl.
    - destruct (click v k) as [v1|] eqn:Hk; [|done].
      destruct (click_keeps_records _ _ _ Hk) as [Hsub1 Hrec1].
      destruct (IH _ _ Hrun) as [Hsub2 Hrec2]. split.
      + by etrans.
      + intros c' Hin. destruct (Hrec2 c' Hin) as (c1 & Hin1 & Hs1).
        destruct (Hrec1 c1 Hin1) as (c & Hin0 & Hs0).
        exists c. split; [done|]. by eapply same_but_name_trans. }
  intros v v' Hrun. destruct (Hcore v v' Hrun) as [Hsub Hrec].
  split_and!; [done| |by intros Hnd; eapply sublist_NoDup|done].
  apply sublist_length in Hsub. by rewrite !length_fmap in Hsub.
Qed.

Lemma clicks_keep_records_witness :
  id <$> [with_name jane_smith "Jane Roe"] `sublist_of` id <$> initial_customers
  ∧ (length [with_name jane_smith "Jane Roe"]
     ≤ length initial_customers)%nat
  ∧ (NoDup (id <$> initial_customers) →
     NoDup (id <$> [with_name jane_smith "Jane Roe"]))
  ∧ ∀ c', c' ∈ [with_name jane_smith "Jane Roe"] →
          ∃ c, c ∈ initial_customers ∧ same_but_name c c'.
Proof.
  apply (clicks_keep_records
           [ClickEdit 1 (answers false (Some "Jane Roe")); ClickAdd;
            ClickDelete 0 (answers true None)]
           initial_view
           {| customers := [with_name jane_smith "Jane Roe"];
              navigated := ["/AdminDashboard/create_user"] |}).
  vm_compute. reflexivity.
Defined.

(** ** The shape of the table *)

(** X8. The table body is never empty and is as wide as the table
    header in every row: it has one row per customer, or one row when
    there is no customer, and every row takes the six columns of the
    header. *)
Theorem render_tbody_shape cs :
  length (render_tbody cs) = length cs `max` 1
  ∧ ∀ r, r ∈ render_tbody cs → row_width r = length table_header.
Proof.
  unfold render_tbody. split.
  - rewrite length_app, length_fmap.
    destruct (decide (length cs = 0)); simpl; lia.
  - intros r Hin. apply elem_of_app in Hin as [Hin|Hin].
    + by apply list_elem_of_fmap in Hin as (c & -> & _).
    + destruct (decide (length cs = 0)); [|by apply elem_of_nil in Hin].
      by apply list_elem_of_singleton in Hin as ->.
Qed.

Lemma render_tbody_shape_witness :
  length (render_tbody []) = 1
  ∧ ∀ r, r ∈ render_tbody initial_customers → row_width r = 6.
Proof.
  split.
  - apply (proj1 (render_tbody_shape [])).
  - apply (proj2 (render_tbody_shape initial_customers)).
Defined.

(** X9. The React keys of the rows are the customer ids, in the order of
    the list, so rows have pairwise distinct keys whenever the ids of the
    list are pairwise distinct; and the two buttons of a row call the
    handlers with the key of the row. *)
Theorem render_tbody_keys cs :
  omap row_key (render_tbody cs) = id <$> cs
  ∧ (NoDup (id <$> cs) → NoDup (omap row_key (render_tbody cs)))
  ∧ ∀ key cells e d,
      DataRow key cells e d ∈ render_tbody cs → e = key ∧ d = key.
Proof.
  assert (Hkeys : omap row_key (render_tbody cs) = id <$> cs).
  { unfold render_tbody. rewrite omap_app.
    replace (omap row_key
               (if decide (length cs = 0)
                then [PlaceholderRow 6 "No customers found"] else []))
      with (@nil Z) by (by case_decide).
    rewrite app_nil_r. induction cs as [|c l IH]; [done|].
    simpl. f_equal. apply IH. }
  split_and!; [done|by rewrite Hkeys|].
  intros key cells e d Hin. unfold render_tbody in Hin.
  apply elem_of_app in Hin as [Hin|Hin].
  - apply list_elem_of_fmap in Hin as (c & Heq & _).
    by injection Heq as -> _ -> ->.
  - case_decide; [|by apply elem_of_nil in Hin].
    by apply list_elem_of_singleton in Hin.
Qed.

Lemma render_tbody_keys_witness :
  omap row_key (render_tbody initial_customers) = id <$> initial_customers
  ∧ (NoDup (id <$> initial_customers) →
     NoDup (omap row_key (render_tbody initial_customers)))
  ∧ ∀ key cells e d,
      DataRow key cells e d ∈ render_tbody initial_customers →
      e = key ∧ d = key.
Proof. apply (render_tbody_keys initial_customers). Defined.

(** ** Deleting every customer *)

Lemma foldl_handleDelete w ts : ∀ cs,
  confirm w confirm_delete_msg = true →
  foldl (λ acc t, handleDelete w t acc) cs ts
  = filter (λ c, id c ∉ ts) cs.
Proof.
  induction ts as [|t ts IH]; intros cs Hyes; simpl.
  - symmetry. induction cs as [|c l IHl]; [done|].
    rewrite filter_cons_True by apply not_elem_of_nil. by f_equal.
  - rewrite IH by done. rewrite (handleDelete_confirmed _ _ _ Hyes).
    rewrite list_filter_filter. apply list_filter_iff.
    intros c. rewrite not_elem_of_cons. tauto.
Qed.

(** X10. Deleting, with each confirmation accepted, every id that occurs
    in the list leaves no customer, and the table then shows the
    placeholder row alone. *)
Theorem delete_all_shows_placeholder w ts cs :
  confirm w confirm_delete_msg = true →
  (∀ c, c ∈ cs → id c ∈ ts) →
  foldl (λ acc t, handleDelete w t acc) cs ts = []
  ∧ render_tbody (foldl (λ acc t, handleDelete w t acc) cs ts)
    = [PlaceholderRow 6 "No customers found"].
Proof.
  intros Hyes Hall.
  assert (Hnil : foldl (λ acc t, handleDelete w t acc) cs ts = []).
  { rewrite foldl_handleDelete by done.
    induction cs as [|c l IH]; [done|].
    rewrite filter_cons_False.
    - apply IH. intros c' Hin. apply Hall. by right.
    - intros Hnot. apply Hnot, Hall. left. }
  by rewrite Hnil.
Qed.

Lemma delete_all_shows_placeholder_witness :
  foldl (λ acc t, handleDelete (answers true None) t acc)
        initial_customers [2%Z; 1%Z] = []
  ∧ render_tbody
      (foldl (λ acc t, handleDelete (answers true None) t acc)
             initial_customers [2%Z; 1%Z])
    = [PlaceholderRow 6 "No customers found"].
Proof.
  apply (delete_all_shows_placeholder (answers true None) [2%Z; 1%Z]
           initial_customers).
  - reflexivity.
  - intros c Hc.
    repeat (apply elem_of_cons in Hc as [-> | Hc];
            [simpl; rewrite !elem_of_cons; tauto|]).
    by apply elem_of_nil in Hc.
Defined.

End ViewCustomers_table.

(** * Traces of the create-user form *)
Section CreateUser_traces.
Import CreateUser CreateUserLog.

Implicit Types (s : State) (n : NetResult) (evs : list Event).
Implicit Types (fd : gmap string string).

(** X11. A change event writes the typed value under the name of its
    input and leaves every other field as it is; a later change of the
    same field overrides an earlier one, and changes of different fields
    give the same form data in either order. *)
Theorem handleChange_fields fd k1 v1 k2 v2 :
  handleChange k1 v1 fd !! k1 = Some v1
  ∧ (∀ k, k ≠ k1 → handleChange k1 v1 fd !! k = fd !! k)
  ∧ handleChange k1 v2 (handleChange k1 v1 fd) = handleChange k1 v2 fd
  ∧ (k1 ≠ k2 →
     handleChange k2 v2 (handleChange k1 v1 fd)
     = handleChange k1 v1 (handleChange k2 v2 fd)).
Proof.
  unfold handleChange. split_and!.
  - apply lookup_insert_eq.
  - intros k Hk. by apply lookup_insert_ne.
  - apply insert_insert_eq.
  - intros Hne. by apply insert_insert_ne.
Qed.

Lemma handleChange_fields_witness :
  handleChange "role" "Admin" empty_formData !! "role" = Some "Admin"
  ∧ (∀ k, k ≠ "role" →
          handleChange "role" "Admin" empty_formData !! k
          = empty_formData !! k)
  ∧ handleChange "role" "Chef" (handleChange "role" "Admin" empty_formData)
    = handleChange "role" "Chef" empty_formData
  ∧ ("role" ≠ "name" →
     handleChange "name" "Chef" (handleChange "role" "Admin" empty_formData)
     = handleChange "role" "Admin"
         (handleChange "name" "Chef" empty_formData)).
Proof.
  apply (handleChange_fields empty_formData "role" "Admin" "name" "Chef").
Defined.

(** X12. In every reachable state every input of the form is controlled:
    the form data holds a string under the name of each input, so no input
    is ever given the value [undefined]. *)
Theorem inputs_always_controlled s :
  reachable s →
  ∀ i, i ∈ inputs → ∃ v, displayed (formData s) i = Some v.
Proof.
  intros Hreach i Hi. unfold displayed.
  apply (elem_of_dom (formData s) (name i)).
  rewrite (reachable_formData_keys s Hreach).
  apply field_names_keys. unfold field_names.
  by apply list_elem_of_fmap_2.
Qed.

Lemma inputs_always_controlled_witness :
  ∃ v, displayed (formData filled_state)
         {| type := "date"; name := "DOB";
            placeholder := "Date of Birth"; required := false |}
       = Some v.
Proof.
  apply (inputs_always_controlled filled_state).
  - exists filled_events. vm_compute. reflexivity.
  - apply list_elem_of_further, list_elem_of_here.
Defined.

(** ** What is reported, and when *)

Lemma step_reports s ev s' :
  step s ev = Some s' →
  length (alerts s') = length (alerts s) + count_settle [ev]
  ∧ length (console s') = length (console s) + count_rejected [ev].
Proof.
  intros Hstep. destruct ev as [k v| |i n]; simpl in Hstep.
  - case_decide; [|done]. injection Hstep as <-.
    unfold count_settle, count_rejected. simpl. lia.
  - destruct (required_filled _); [|done]. injection Hstep as <-.
    unfold count_settle, count_rejected. simpl. lia.
  - destruct (pending s !! i) as [rq|]; [|done]. injection Hstep as <-.
    unfold count_settle, count_rejected, handleSubmit_resume. simpl.
    destruct n as [|r]; simpl.
    + rewrite !length_app. simpl. lia.
    + destruct (validateStatus (status r)); simpl.
      * destruct (_ || _); simpl; rewrite !length_app; simpl; lia.
      * rewrite !length_app. simpl. lia.
Qed.

(** X13. Along every run of the form from its initial state, the number
    of alerts shown is the number of requests settled, and the number of
    errors written to the console is the number of requests that failed
    for axios: each settled request is reported by exactly one alert, a
    failed one is logged exactly once, and neither typing nor submitting
    shows or logs anything. *)
Theorem reports_count_settled evs s :
  run initial_state evs = Some s →
  length (alerts s) = count_settle evs
  ∧ length (console s) = count_rejected evs.
Proof.
  assert (Hgen : ∀ s0 s1, run s0 evs = Some s1 →
    length (alerts s1) = length (alerts s0) + count_settle evs
    ∧ length (console s1) = length (console s0) + count_rejected evs).
  { induction evs as [|ev evs IH]; intros s0 s1 Hrun; simpl in Hrun.
    - injection Hrun as <-. unfold count_settle, count_rejected. simpl. lia.
    - destruct (step s0 ev) as [s'|] eqn:Hstep; [|done].
      destruct (IH _ _ Hrun) as [IHa IHc].
      destruct (step_reports _ _ _ Hstep) as [Ha Hc].
      unfold count_settle, count_rejected in *. simpl in *.
      destruct ev as [k v| |i n]; simpl in *; try lia.
      destruct (request_failed n); simpl in *; lia. }
  intros Hrun. apply (Hgen initial_state s Hrun).
Qed.

Lemma reports_count_settled_witness :
  length (alerts (submission empty_message_response
                    (handleSubmit filled_state)))
  = count_settle (double_submit_events ++ [Settle 1 empty_message_response])
  ∧ length (console (submission empty_message_response
                       (handleSubmit filled_state)))
    = count_rejected
        (double_submit_events ++ [Settle 1 empty_message_response]).
Proof.
  apply (reports_count_settled
           (double_submit_events ++ [Settle 1 empty_message_response])).
  vm_compute. reflexivity.
Defined.

(** X14. A response that axios accepts (a status from 200 to 299) is
    reported by one alert with a fixed text, the text of success for status
    200 or 201 and the text of an error for any other status, whatever the
    body of the response holds; nothing is written to the console. *)
Theorem resolved_response_report s r :
  validateStatus (status r) = true →
  alerts (submission (Responded r) s)
  = alerts s ++ [JsString
                   (if bool_decide (status r = 200%Z ∨ status r = 201%Z)
                    then "User created successfully!"
                    else "Error creating user.")]
  ∧ console (submission (Responded r) s) = console s.
Proof.
  intros Hv. unfold submission. simpl. rewrite Hv. simpl.
  destruct (Z.eqb_spec (status r) 201) as [H201|H201],
           (Z.eqb_spec (status r) 200) as [H200|H200]; simpl.
  - rewrite bool_decide_eq_true_2 by auto. done.
  - rewrite bool_decide_eq_true_2 by auto. done.
  - rewrite bool_decide_eq_true_2 by auto. done.
  - rewrite bool_decide_eq_false_2 by (intros [?|?]; done). done.
Qed.

Lemma resolved_response_report_witness :
  alerts (submission
            (Responded {| status := 204;
                          data := Some {| message := Some (JsString "No content") |} |})
            filled_state)
  = [] ++ [JsString "Error creating user."]
  ∧ console (submission
               (Responded {| status := 204;
                             data := Some {| message := Some (JsString "No content") |} |})
               filled_state)
    = [].
Proof.
  apply (resolved_response_report filled_state
           {| status := 204;
              data := Some {| message := Some (JsString "No content") |} |}).
  reflexivity.
Defined.

(** ** What is sent *)

Lemma step_sent s ev s' :
  step s ev = Some s' →
  dom (formData s) = dom empty_formData →
  Forall create_request (sent s) →
  Forall create_request (sent s').
Proof.
  intros Hstep Hdom Hall. destruct ev as [k v| |i n]; simpl in Hstep.
  - case_decide; [|done]. by injection Hstep as <-.
  - destruct (required_filled (formData s)) eqn:Hreq; [|done].
    injection Hstep as <-. simpl.
    apply Forall_app. split; [done|].
    apply Forall_singleton. by unfold create_request.
  - destruct (pending s !! i) as [rq|]; [|done]. injection Hstep as <-.
    by destruct (handleSubmit_resume_network (axios_settle n)
                   (settle_pending i s)) as [_ ->].
Qed.

(** X15. Every request the form has sent, in any reachable state, is a
    POST to the create endpoint whose body has exactly the five keys of the
    form and a non-empty value for name, phoneNumber and password: the
    submit event only reaches the handler when the inputs marked required
    are filled. *)
Theorem sent_requests_well_formed evs s :
  run initial_state evs = Some s →
  ∀ r, r ∈ sent s →
       method r = "POST"
       ∧ url r = "http://localhost:5000/api/auth/create"
       ∧ dom (body r)
         = ({[ "name"; "DOB"; "phoneNumber"; "password"; "role" ]}
            : gset string)
       ∧ ∀ k, k ∈ ["name"; "phoneNumber"; "password"] →
              ∃ v, body r !! k = Some v ∧ v ≠ "".
Proof.
  assert (Hgen : ∀ s0 s1, run s0 evs = Some s1 →
    dom (formData s0) = dom empty_formData →
    Forall create_request (sent s0) →
    Forall create_request (sent s1)).
  { induction evs as [|ev evs IH]; intros s0 s1 Hrun Hdom Hall;
      simpl in Hrun.
    - by injection Hrun as <-.
    - destruct (step s0 ev) as [s'|] eqn:Hstep; [|done].
      eapply IH; [done| |].
      + by eapply step_formData_keys.
      + by eapply step_sent. }
  intros Hrun r Hr.
  assert (Hall : Forall create_request (sent s)).
  { eapply Hgen; [done..|]. apply Forall_nil_2. }
  apply (proj1 (Forall_forall _ _) Hall) in Hr
    as (Hm & Hu & Hdom & Hreq).
  split_and!; [done|done|by rewrite Hdom, dom_empty_formData|].
  intros k Hk. unfold required_filled in Hreq. simpl in Hreq.
  unfold displayed in Hreq. simpl in Hreq.
  apply andb_prop in Hreq as [H1 Hreq].
  apply andb_prop in Hreq as [H2 Hreq].
  apply andb_prop in Hreq as [H3 _].
  assert (Hne : ∀ o, truthy o = true → ∃ v, o = Some v ∧ v ≠ "").
  { intros [v|] Ht; [|done]. exists v. split; [done|]. by intros ->. }
  repeat (apply elem_of_cons in Hk as [-> | Hk]; [by apply Hne|]).
  by apply elem_of_nil in Hk.
Qed.

Lemma sent_requests_well_formed_witness :
  dom (formData filled_state)
  = ({[ "name"; "DOB"; "phoneNumber"; "password"; "role" ]} : gset string)
  ∧ ∀ k, k ∈ ["name"; "phoneNumber"; "password"] →
         ∃ v, formData filled_state !! k = Some v ∧ v ≠ "".
Proof.
  destruct (sent_requests_well_formed double_submit_events
              (handleSubmit (handleSubmit filled_state)))
    with (r := {| method := "POST"; url := create_url;
                  body := formData filled_state |})
    as (_ & _ & Hdom & Hreq).
  - vm_compute. reflexivity.
  - apply list_elem_of_here.
  - split; [exact Hdom | exact Hreq].
Defined.

(** ** After a submission *)

(** X16. After a submission answered with status 200 or 201 the form
    cannot be submitted again as it stands: the required inputs are empty,
    so the next submit event does not reach the handler and no request is
    issued until they are typed in again. *)
Theorem success_blocks_resubmit s n :
  status_ok n = true →
  required_filled (formData (submission n s)) = false
  ∧ step (submission n s) Submit = None.
Proof.
  intros Hok. unfold submission.
  destruct (status_ok_resolved n Hok) as (res & -> & Hst).
  unfold handleSubmit_resume. rewrite Hst. simpl. done.
Qed.

Lemma success_blocks_resubmit_witness :
  required_filled
    (formData (submission (Responded {| status := 200; data := None |})
                 filled_state)) = false
  ∧ step (submission (Responded {| status := 200; data := None |})
            filled_state) Submit = None.
Proof.
  apply (success_blocks_resubmit filled_state
           (Responded {| status := 200; data := None |})).
  reflexivity.
Defined.

(** X17. After a submission that failed (no response, or a status other
    than 200 and 201) the form can be submitted again as it stands, and
    the new request carries the same body as the failed one. *)
Theorem failure_allows_retry s n :
  required_filled (formData s) = true →
  status_ok n = false →
  ∃ s', step (submission n s) Submit = Some s'
        ∧ last (sent s') = last (sent (handleSubmit s))
        ∧ last (sent s')
          = Some {| method := "POST"; url := create_url;
                    body := formData s |}.
Proof.
  intros Hreq Hfail.
  assert (Hfd : formData (submission n s) = formData s)
    by (unfold submission; by rewrite status_not_ok_formData).
  assert (Hlast : ∀ s0, last (sent (handleSubmit s0))
                        = Some {| method := "POST"; url := create_url;
                                  body := formData s0 |}).
  { intros s0. unfold handleSubmit, axios_post. simpl. apply last_snoc. }
  exists (handleSubmit (submission n s)). split_and!.
  - change (step (submission n s) Submit)
      with (if required_filled (formData (submission n s))
            then Some (handleSubmit (submission n s)) else None).
    by rewrite Hfd, Hreq.
  - by rewrite !Hlast, Hfd.
  - by rewrite Hlast, Hfd.
Qed.

Lemma failure_allows_retry_witness :
  ∃ s', step (submission NetworkError filled_state) Submit = Some s'
        ∧ last (sent s') = last (sent (handleSubmit filled_state))
        ∧ last (sent s')
          = Some {| method := "POST"; url := create_url;
                    body := formData filled_state |}.
Proof.
  apply (failure_allows_retry filled_state NetworkError); reflexivity.
Defined.

(** X18. Whenever a pending request settles, whatever was typed or
    submitted since it was issued: that request alone leaves the pending
    ones and exactly one alert is shown; with status 200 or 201 the whole
    form is emptied, losing what was typed meanwhile, and otherwise the
    form data stays as it is at that moment. *)
Theorem settle_any_time s i n s' :
  step s (Settle i n) = Some s' →
  pending s' = delete i (pending s)
  ∧ length (alerts s') = S (length (alerts s))
  ∧ (status_ok n = true → formData s' = empty_formData)
  ∧ (status_ok n = false → formData s' = formData s).
Proof.
  intros Hstep.
  destruct (step_reports _ _ _ Hstep) as [Ha _].
  simpl in Hstep. destruct (pending s !! i) as [rq|]; [|done].
  injection Hstep as <-. split_and!.
  - by destruct (handleSubmit_resume_network (axios_settle n)
                   (settle_pending i s)) as [-> _].
  - rewrite Ha. unfold count_settle. simpl. lia.
  - intros Hok. destruct (status_ok_resolved n Hok) as (res & -> & Hst).
    unfold handleSubmit_resume. by rewrite Hst.
  - intros Hfail. by rewrite status_not_ok_formData.
Qed.

Lemma settle_any_time_witness :
  pending (submission (Responded {| status := 201; data := None |})
             filled_state)
  = delete 0 (pending (handleSubmit filled_state))
  ∧ length (alerts (submission (Responded {| status := 201; data := None |})
                      filled_state))
    = S (length (alerts (handleSubmit filled_state)))
  ∧ (status_ok (Responded {| status := 201; data := None |}) = true →
     formData (submission (Responded {| status := 201; data := None |})
                 filled_state)
     = empty_formData)
  ∧ (status_ok (Responded {| status := 201; data := None |}) = false →
     formData (submission (Responded {| status := 201; data := None |})
                 filled_state)
     = formData (handleSubmit filled_state)).
Proof.
  apply (settle_any_time (handleSubmit filled_state) 0
           (Responded {| status := 201; data := None |})).
  reflexivity.
Defined.

End CreateUser_traces.

(** * The statistics dashboard *)
Section Dashboard.
Import Statistics.

Lemma cells_lookup {A} (data : list A) i cell :
  cells data !! i = Some cell →
  i < length data
  ∧ cell = {| key := "cell-" +:+ pretty i;
              fill := COLORS !! (i `mod` length COLORS) |}.
Proof.
  unfold cells. rewrite list_lookup_imap.
  destruct (data !! i) as [x|] eqn:Hx; [|done].
  intros [= <-]. split; [|done]. by eapply lookup_lt_Some.
Qed.

Lemma NoDup_COLORS : NoDup COLORS.
Proof.
  unfold COLORS. repeat (apply NoDup_cons; split);
    [rewrite ?elem_of_cons, elem_of_nil; intros H;
     repeat (destruct H as [H|H]; try discriminate); done ..
    | apply NoDup_nil_2].
Qed.

(** X19. Whatever the data of a pie, it gets one cell per entry and
    every cell has a fill colour, taken from the palette: the index is
    reduced modulo the length of the palette, so it is never out of range,
    and the colours repeat with the period of the palette. *)
Theorem cells_fill_in_palette {A} (data : list A) :
  length (cells data) = length data
  ∧ (∀ i cell, cells data !! i = Some cell →
               ∃ colour, fill cell = Some colour ∧ colour ∈ COLORS)
  ∧ (∀ i c1 c2, cells data !! i = Some c1 →
                cells data !! (i + length COLORS) = Some c2 →
                fill c1 = fill c2).
Proof.
  split_and!.
  - apply length_imap.
  - intros i cell Hi. apply cells_lookup in Hi as [_ ->].
    cbn -[Nat.modulo COLORS].
    assert (Hlt : i `mod` length COLORS < length COLORS)
      by (by apply Nat.mod_upper_bound).
    apply lookup_lt_is_Some_2 in Hlt as [colour Hc].
    exists colour. split; [done|]. by eapply list_elem_of_lookup_2.
  - intros i c1 c2 H1 H2.
    apply cells_lookup in H1 as [_ ->]. apply cells_lookup in H2 as [_ ->].
    cbn -[Nat.modulo COLORS]. f_equal.
    replace (i + length COLORS) with (i + 1 * length COLORS) by lia.
    by rewrite Nat.Div0.mod_add.
Qed.

Lemma cells_fill_in_palette_witness :
  length (cells dataBestSelling) = length dataBestSelling
  ∧ (∀ i cell, cells dataBestSelling !! i = Some cell →
               ∃ colour, fill cell = Some colour ∧ colour ∈ COLORS)
  ∧ (∀ i c1 c2, cells dataBestSelling !! i = Some c1 →
                cells dataBestSelling !! (i + length COLORS) = Some c2 →
                fill c1 = fill c2).
Proof. apply (cells_fill_in_palette dataBestSelling). Defined.

(** X20. The cells of a pie have pairwise distinct React keys, whatever
    the data; and they have pairwise distinct fill colours as long as the
    pie has no more entries than the palette has colours. *)
Theorem cells_distinct_keys_fills {A} (data : list A) :
  NoDup (key <$> cells data)
  ∧ ((length data ≤ length COLORS)%nat → NoDup (fill <$> cells data)).
Proof.
  split.
  - apply NoDup_alt. intros i j k Hi Hj.
    rewrite list_lookup_fmap in Hi, Hj.
    destruct (cells data !! i) as [ci|] eqn:Hci; [|done].
    destruct (cells data !! j) as [cj|] eqn:Hcj; [|done].
    apply cells_lookup in Hci as [_ ->]. apply cells_lookup in Hcj as [_ ->].
    cbn -[Nat.modulo COLORS] in Hi, Hj.
    injection Hi as <-. injection Hj as Hj.
    by apply (inj pretty).
  - intros Hlen. apply NoDup_alt. intros i j c Hi Hj.
    rewrite list_lookup_fmap in Hi, Hj.
    destruct (cells data !! i) as [ci|] eqn:Hci; [|done].
    destruct (cells data !! j) as [cj|] eqn:Hcj; [|done].
    apply cells_lookup in Hci as [Hilt ->].
    apply cells_lookup in Hcj as [Hjlt ->].
    cbn -[Nat.modulo COLORS] in Hi, Hj.
    apply (inj Some) in Hi, Hj. subst c.
    rewrite !Nat.mod_small in Hj by lia.
    destruct (COLORS !! i) as [colour|] eqn:Hc.
    + by apply (NoDup_lookup COLORS i j colour NoDup_COLORS).
    + apply lookup_ge_None in Hc. lia.
Qed.

Lemma cells_distinct_keys_fills_witness :
  NoDup (key <$> cells newVsReturning)
  ∧ NoDup (fill <$> cells newVsReturning).
Proof.
  destruct (cells_distinct_keys_fills newVsReturning) as [Hk Hf].
  split; [exact Hk|]. apply Hf. simpl. lia.
Defined.

(** X21. The text colour of a KPI card is never empty: it is the colour
    given when one is given and is not the empty string, and "#333"
    otherwise; and a card given no suffix shows the same as a card given the
    empty suffix. *)
Theorem KpiCard_defaults (props : KpiCard.Props) :
  KpiCard.style_color (KpiCard.KpiCard props) ≠ ""
  ∧ (∀ c, KpiCard.color props = Some c → c ≠ "" →
          KpiCard.style_color (KpiCard.KpiCard props) = c)
  ∧ (truthy (KpiCard.color props) = false →
     KpiCard.style_color (KpiCard.KpiCard props) = "#333")
  ∧ (truthy (KpiCard.suffix props) = false →
     KpiCard.suffix_text (KpiCard.KpiCard props) = "").
Proof.
  unfold KpiCard.KpiCard. simpl. split_and!.
  - destruct (KpiCard.color props) as [c|]; simpl; [|done].
    destruct (String.eqb_spec c ""); simpl; done.
  - intros c -> Hne. simpl. by destruct (String.eqb_spec c "").
  - destruct (KpiCard.color props) as [c|]; simpl; [|done].
    by intros ->.
  - destruct (KpiCard.suffix props) as [c|]; simpl; [|done].
    by intros ->.
Qed.

Lemma KpiCard_defaults_witness :
  KpiCard.style_color
    (KpiCard.KpiCard {| KpiCard.title := "Orders Today";
                        KpiCard.value := 320;
                        KpiCard.suffix := None;
                        KpiCard.color := None |}) = "#333"
  ∧ KpiCard.suffix_text
      (KpiCard.KpiCard {| KpiCard.title := "Orders Today";
                          KpiCard.value := 320;
                          KpiCard.suffix := None;
                          KpiCard.color := None |}) = "".
Proof.
  pose proof (KpiCard_defaults
                {| KpiCard.title := "Orders Today"; KpiCard.value := 320;
                   KpiCard.suffix := None; KpiCard.color := None |})
    as (_ & _ & Hc & Hs).
  split; [apply Hc | apply Hs]; reflexivity.
Defined.

End Dashboard.
